(** * Spectrogram.py: the [spectrogram] class, embedded and verified

    The class computes a spectrogram with [scipy.signal.spectrogram],
    optionally derives features with [librosa], and optionally writes a
    JSON document.  The routines of scipy, librosa, numpy and the file
    system are not part of the repository: they are taken as a record of
    parameters ([externals]), and every theorem holds for all of them.

    Python's effects are written out: the instance attributes, the standard
    output and the files form an explicit state, and a raised exception is a
    result that keeps the state reached so far. *)

From stdpp Require Import gmap strings list.
From Stdlib Require Import ZArith.

Local Open Scope Z_scope.
Local Open Scope string_scope.

(** ** Exceptions *)

(** The exception classes the code and its libraries can raise. *)
Inductive exn : Type :=
  | AttributeError
  | IndexError
  | TypeError
  | ValueError
  | ZeroDivisionError
  | OSError
  | ParameterError.

(** ** Arrays *)

(** A numpy array: its shape and its elements in row-major order. *)
Record ndarray (A : Type) : Type := mk_ndarray {
  shape : list nat;
  data : list A
}.
Arguments mk_ndarray {A} shape data.
Arguments shape {A} _.
Arguments data {A} _.

(** Of [n] blocks of [stride] elements stored one after the other, the
    first [width] elements of each. *)
Fixpoint column0 {A : Type} (n width stride : nat) (d : list A) : list A :=
  match n with
  | O => []
  | S n' => take width d ++ column0 n' width stride (drop stride d)
  end.

(** [a[:, 0]]: index 0 along the second axis.  For a 2-D array of shape
    (n, m) it is column 0, of shape (n,).  It is an [IndexError] when the
    array has no second axis or that axis is empty. *)
Definition slice_col0 {A : Type} (a : ndarray A) : exn + ndarray A :=
  match shape a with
  | n :: m :: rest =>
      match m with
      | O => inl IndexError
      | S _ =>
          let width := foldr Nat.mul 1%nat rest in
          inr (mk_ndarray (n :: rest)
                 (column0 n width (m * width) (data a)))
      end
  | _ => inl IndexError
  end.

(** A mono waveform: a flat sequence of samples. *)
Definition mono {A : Type} (a : list A) : ndarray A :=
  mk_ndarray [length a] a.

(** The rows [a_i, b_i] of a two-column table, stored row after row. *)
Fixpoint interleave {A : Type} (a b : list A) : list A :=
  match a, b with
  | x :: a', y :: b' => x :: y :: interleave a' b'
  | _, _ => []
  end.

(** A stereo waveform with channels [a] and [b]: shape (len a, 2). *)
Definition stereo {A : Type} (a b : list A) : ndarray A :=
  mk_ndarray [length a; 2%nat] (interleave a b).

Section Spectrogram.

(** The element types of a waveform and of the computed arrays. *)
Context {sample float : Type}.

(** ** Values stored in the saved dictionary *)

Inductive pyval : Type :=
  | PyNone
  | PyList (a : ndarray float)    (* [a.tolist()] *)
  | PyArray (a : ndarray float).  (* an array object *)

(** ** The object, the output and the files *)

(** The attributes set by [__init__]. *)
Record spectrogram : Type := mk_spectrogram {
  sampleFreqs : option (ndarray float);
  sampleTime : option (ndarray float);
  colorMesh : option (ndarray float);
  features : option (ndarray float);
  container : option (gmap string pyval)
}.

(** A file opened for writing is [Truncated] until the object given to
    [json.dump] is written whole; [Dumped None] is the document [null]. *)
Inductive json_file : Type :=
  | Truncated
  | Dumped (d : option (gmap string pyval)).

Record state : Type := mk_state {
  self : spectrogram;
  stdout : list string;
  files : gmap string json_file
}.

(** ** The libraries *)

Record externals : Type := mk_externals {
  (* scipy.signal.spectrogram(x, fs=.., window=..) *)
  signal_spectrogram :
    ndarray sample → Z → string →
    exn + (ndarray float * ndarray float * ndarray float);
  (* the truth value of an array, as [or] and [not] ask for it *)
  ndarray_bool : ndarray sample → exn + bool;
  (* librosa.feature.spectral_centroid(y=.., sr=.., S=.., window=..) *)
  spectral_centroid :
    option (ndarray sample) → Z → option (ndarray float) → string →
    exn + ndarray float;
  (* librosa.feature.spectral_rolloff(y=.., sr=.., S=.., window=..) *)
  spectral_rolloff :
    option (ndarray sample) → Z → option (ndarray float) → string →
    exn + ndarray float;
  (* librosa.feature.melspectrogram(y=.., sr=.., S=.., window=..) *)
  melspectrogram :
    option (ndarray sample) → Z → option (ndarray float) → string →
    exn + ndarray float;
  (* numpy.ndarray(a, b, c), the three arguments taken positionally *)
  np_ndarray :
    ndarray float → ndarray float → ndarray float → exn + ndarray float;
  (* open(path, 'w'): the exception raised, if any *)
  open_w : string → option exn;
  (* json.dump(d, outfile): the exception raised, if any *)
  json_dump : option (gmap string pyval) → option exn
}.

(** ** The monad of a method body *)

Definition M (A : Type) : Type := state → (exn + A) * state.

Definition ret {A : Type} (a : A) : M A := λ s, (inr a, s).

Definition raise {A : Type} (e : exn) : M A := λ s, (inl e, s).

Definition bind {A B : Type} (m : M A) (k : A → M B) : M B :=
  λ s, match m s with
       | (inl e, s') => (inl e, s')
       | (inr a, s') => k a s'
       end.

(** A library call: its exception is raised, its result returned. *)
Definition call {A : Type} (r : exn + A) : M A :=
  match r with
  | inl e => raise e
  | inr a => ret a
  end.

Definition get : M spectrogram := λ s, (inr (self s), s).

Definition put (o : spectrogram) : M unit :=
  λ s, (inr tt, mk_state o (stdout s) (files s)).

Definition print (line : string) : M unit :=
  λ s, (inr tt, mk_state (self s) (stdout s ++ [line]) (files s)).

Definition write_file (p : string) (c : json_file) : M unit :=
  λ s, (inr tt, mk_state (self s) (stdout s) (<[p := c]> (files s))).

Global Instance M_ret : MRet M := @ret.
Global Instance M_bind : MBind M := λ A B k m, bind m k.

(** ** The methods *)

Variable E : externals.

(** [__init__]: every attribute starts as [None]. *)
Definition __init__ : M unit :=
  print "Initializing Spectrogram";;
  put (mk_spectrogram None None None None None).

Definition set_spectrum (r : ndarray float * ndarray float * ndarray float)
    : M unit :=
  o ← get;
  let '(f, t, c) := r in
  put (mk_spectrogram (Some f) (Some t) (Some c) (features o) (container o)).

(** [_spectrogram]: the three attributes are assigned together, from the
    tuple the library returns. *)
Definition _spectrogram (songData : ndarray sample) (songSampleRate : Z)
    (windowType : string) : M unit :=
  if decide (length (shape songData) = 2%nat) then
    print "song is stereo";;
    print "Converting ..";;
    x ← call (slice_col0 songData);
    r ← call (signal_spectrogram E x songSampleRate windowType);
    set_spectrum r
  else
    r ← call (signal_spectrogram E songData songSampleRate windowType);
    set_spectrum r.

(** [a.tolist()] on an attribute: an [AttributeError] on [None]. *)
Definition tolist (a : option (ndarray float)) : M pyval :=
  match a with
  | None => raise AttributeError
  | Some x => ret (PyList x)
  end.

Definition set_container (d : gmap string pyval) : M unit :=
  o ← get;
  put (mk_spectrogram (sampleFreqs o) (sampleTime o) (colorMesh o)
         (features o) (Some d)).

(** The value of the attribute [features] as stored in a dictionary. *)
Definition features_value (o : spectrogram) : pyval :=
  match features o with
  | None => PyNone
  | Some a => PyArray a
  end.

(** [self.container['features'] = self.features] *)
Definition container_set_features : M unit :=
  o ← get;
  match container o with
  | None => raise TypeError
  | Some d => set_container (<["features" := features_value o]> d)
  end.

(** [with open(p, 'w') as outfile: json.dump(self.container, outfile)] *)
Definition dump_container (p : string) : M unit :=
  match open_w E p with
  | Some e => raise e
  | None =>
      write_file p Truncated;;
      o ← get;
      match json_dump E (container o) with
      | Some e => raise e
      | None => write_file p (Dumped (container o))
      end
  end.

(** [_saveFormat] *)
Definition _saveFormat (folder filename : string)
    (featurize compressed : bool) : M unit :=
  (if compressed then
     c ← get ≫= (λ o, tolist (colorMesh o));
     set_container {[ "color_mesh" := c ]}
   else
     f ← get ≫= (λ o, tolist (sampleFreqs o));
     t ← get ≫= (λ o, tolist (sampleTime o));
     c ← get ≫= (λ o, tolist (colorMesh o));
     set_container (<["sample_frequencies" := f]>
                     (<["sample_time" := t]> {[ "color_mesh" := c ]})));;
  (if featurize then container_set_features else ret tt);;
  dump_container ((folder +:+ filename) +:+ ".json").

(** The test [not (song or sr)]: [song or sr] is [song] when [song] is
    true and [sr] otherwise; [None] is false and an integer is false
    exactly when it is 0. *)
Definition not_song_or_sr (song : option (ndarray sample)) (sr : Z)
    : exn + bool :=
  match song with
  | None => inr (Z.eqb sr 0)
  | Some a =>
      match ndarray_bool E a with
      | inl e => inl e
      | inr true => inr false
      | inr false => inr (Z.eqb sr 0)
      end
  end.

(** The [else] branch of [_spectralFeatures]: the three library calls,
    from left to right, then the call of [ndarray]. *)
Definition features_of (song : option (ndarray sample))
    (S : option (ndarray float)) (sr : Z) (window : string)
    : M (option (ndarray float)) :=
  c ← call (spectral_centroid E song sr S window);
  r ← call (spectral_rolloff E song sr S window);
  m ← call (melspectrogram E song sr S window);
  a ← call (np_ndarray E c r m);
  ret (Some a).

Definition missing_input_message : string :=
  "provide either a wav file data or a spectrogram readings or both".

(** [_spectralFeatures]: the first branch prints and returns [None]. *)
Definition _spectralFeatures (song : option (ndarray sample))
    (S : option (ndarray float)) (sr : Z) (window : string)
    : M (option (ndarray float)) :=
  b ← call (not_song_or_sr song sr);
  if b : bool then
    print missing_input_message;;
    ret None
  else
    features_of song S sr window.

Definition set_features (v : option (ndarray float)) : M unit :=
  o ← get;
  put (mk_spectrogram (sampleFreqs o) (sampleTime o) (colorMesh o)
         v (container o)).

(** The truth value of [fileName]: false for [None] and for [''] *)
Definition truthy (name : option string) : bool :=
  match name with
  | None => false
  | Some n => negb (String.eqb n "")
  end.

(** [__call__] *)
Definition __call__ (songData : ndarray sample) (songSR : Z)
    (window : string) (fileName : option string) (path : option string)
    (compressed featureize : bool) : M unit :=
  _spectrogram songData songSR window;;
  (if featureize then
     v ← get ≫= (λ o, _spectralFeatures None (colorMesh o) songSR window);
     set_features v
   else ret tt);;
  print "spectrogram created";;
  if truthy fileName then
    let name := default "" fileName in
    match path with
    | None =>
        _saveFormat "" name featureize compressed;;
        print "saved in main directory .. "
    | Some p =>
        _saveFormat p name featureize compressed
    end;;
    print "spectrogram saved"
  else ret tt.

End Spectrogram.

Arguments pyval : clear implicits.
Arguments json_file : clear implicits.
Arguments spectrogram : clear implicits.
Arguments state : clear implicits.
Arguments externals : clear implicits.
Arguments M : clear implicits.

(** The defaults of [_spectralFeatures]. *)
Definition default_sr : Z := 22050.
Definition default_window : string := "hann".

(** The window names listed under Options in the docstring of
    [_spectralFeatures]. *)
Definition window_options : list string :=
  [ "boxcar"; "triang"; "blackman"; "hamming"; "hann"; "bartlett";
    "flattop"; "parzen"; "bohman"; "blackmanharris"; "nuttall"; "barthann";
    "kaiser"; "gaussian"; "general_gaussian"; "slepian"; "dpss"; "chebwin";
    "exponential"; "tukey" ].

(** The lines [_spectrogram] prints for a 2-D waveform. *)
Definition stereo_notices {A : Type} (a : ndarray A) : list string :=
  if decide (length (shape a) = 2%nat)
  then ["song is stereo"; "Converting .."]
  else [].

(** ** The pipeline by value

    The three steps as functions of their inputs, and the orchestration of
    spec §4.4 over them: the result of each step is handed to the next one
    instead of being read back from the object. *)

Section Pipeline.

Context {sample float : Type}.
Variable E : externals sample float.

Record SpectrogramResult : Type := mk_result {
  frequencyBins : ndarray float;
  timeBins : ndarray float;
  intensity : ndarray float
}.

Definition and_then {A B : Type} (r : exn + A) (k : A → exn + B) : exn + B :=
  match r with
  | inl e => inl e
  | inr a => k a
  end.

(** The waveform handed to the transform: the first channel of a 2-D
    table, the waveform itself otherwise. *)
Definition first_channel (waveform : ndarray sample) : exn + ndarray sample :=
  if decide (length (shape waveform) = 2%nat) then slice_col0 waveform
  else inr waveform.

(** §4.1 *)
Definition Transform (waveform : ndarray sample) (sampleRate : Z)
    (window : string) : exn + SpectrogramResult :=
  and_then (first_channel waveform) (λ x,
  and_then (signal_spectrogram E x sampleRate window) (λ '(f, t, c),
  inr (mk_result f t c))).

(** §4.2: [None] stands for the reported failure. *)
Definition FeatureExtraction (song : option (ndarray sample))
    (S : option (ndarray float)) (sampleRate : Z) (window : string)
    : exn + option (ndarray float) :=
  and_then (not_song_or_sr E song sampleRate) (λ b : bool,
  if b then inr None
  else
    and_then (spectral_centroid E song sampleRate S window) (λ c,
    and_then (spectral_rolloff E song sampleRate S window) (λ r,
    and_then (melspectrogram E song sampleRate S window) (λ m,
    and_then (np_ndarray E c r m) (λ a, inr (Some a)))))).

(** §6, output file format. *)
Definition PersistedDocument (compressed includeFeatures : bool)
    (res : SpectrogramResult) (fb : option (ndarray float))
    : gmap string (pyval float) :=
  let base : gmap string (pyval float) :=
    if compressed then {[ "color_mesh" := PyList (intensity res) ]}
    else <["sample_frequencies" := PyList (frequencyBins res)]>
           (<["sample_time" := PyList (timeBins res)]>
              {[ "color_mesh" := PyList (intensity res) ]}) in
  if includeFeatures
  then <["features" := from_option PyArray PyNone fb]> base
  else base.

(** §4.3: one document written at [folder ++ name ++ ".json"]. *)
Definition Serialization (d : gmap string (pyval float))
    (folder name : string) (fs : gmap string (json_file float))
    : (exn + unit) * gmap string (json_file float) :=
  let p := (folder +:+ name) +:+ ".json" in
  match open_w E p with
  | Some e => (inl e, fs)
  | None =>
      match json_dump E (Some d) with
      | Some e => (inl e, <[p := Truncated]> fs)
      | None => (inr tt, <[p := Dumped (Some d)]> fs)
      end
  end.

Definition retain (res : SpectrogramResult) (o : spectrogram float)
    : spectrogram float :=
  mk_spectrogram (Some (frequencyBins res)) (Some (timeBins res))
    (Some (intensity res)) (features o) (container o).

Definition with_features (fb : option (ndarray float))
    (o : spectrogram float) : spectrogram float :=
  mk_spectrogram (sampleFreqs o) (sampleTime o) (colorMesh o) fb
    (container o).

Definition with_container (d : gmap string (pyval float))
    (o : spectrogram float) : spectrogram float :=
  mk_spectrogram (sampleFreqs o) (sampleTime o) (colorMesh o) (features o)
    (Some d).

(** §4.4: Transform; then Feature Extraction if [featurize], on the matrix
    just computed; then Serialization if a name is provided. *)
Definition Processor_run (waveform : ndarray sample) (sampleRate : Z)
    (window : string) (outputName outputPath : option string)
    (compressed featurize : bool)
    (o : spectrogram float) (fs : gmap string (json_file float))
    : (exn + unit) * spectrogram float * gmap string (json_file float) :=
  match Transform waveform sampleRate window with
  | inl e => (inl e, o, fs)
  | inr res =>
      let o1 := retain res o in
      let extracted :=
        if featurize
        then FeatureExtraction None (Some (intensity res)) sampleRate window
        else inr (features o) in
      match extracted with
      | inl e => (inl e, o1, fs)
      | inr fb =>
          let o2 := with_features fb o1 in
          match outputName with
          | Some name =>
              if String.eqb name "" then (inr tt, o2, fs)
              else
                let d := PersistedDocument compressed featurize res fb in
                let '(r, fs') :=
                  Serialization d (default "" outputPath) name fs in
                (r, with_container d o2, fs')
          | None => (inr tt, o2, fs)
          end
      end
  end.

(** The lines a run prints, in order. *)
Definition printed_lines (waveform : ndarray sample) (sampleRate : Z)
    (window : string) (outputName outputPath : option string)
    (compressed featurize : bool)
    (o : spectrogram float) (fs : gmap string (json_file float))
    : list string :=
  stereo_notices waveform ++
  match Transform waveform sampleRate window with
  | inl _ => []
  | inr res =>
      let extracted :=
        if featurize
        then FeatureExtraction None (Some (intensity res)) sampleRate window
        else inr (features o) in
      match extracted with
      | inl _ => []
      | inr fb =>
          (if featurize && bool_decide (fb = None)
           then [missing_input_message] else []) ++
          "spectrogram created" ::
          match outputName with
          | Some name =>
              if String.eqb name "" then []
              else
                let d := PersistedDocument compressed featurize res fb in
                match (Serialization d (default "" outputPath) name fs).1 with
                | inl _ => []
                | inr _ =>
                    (if outputPath is None
                     then ["saved in main directory .. "] else []) ++
                    ["spectrogram saved"]
                end
          | None => []
          end
      end
  end.

End Pipeline.

(** What a run leaves behind, the printed lines apart. *)
Definition observe {float A : Type} (r : (exn + A) * state float)
    : (exn + A) * spectrogram float * gmap string (json_file float) :=
  (r.1, self r.2, files r.2).

(** ** A stand-in for the libraries

    An instance of [externals] over integers, used to run the methods on
    concrete inputs.  Like scipy it accepts window names beyond the
    documented options ("cosine"), does not look at the sign of the sample
    rate and divides by it, and (as older releases did) returns empty
    arrays for an empty waveform; like librosa it refuses a call with
    neither a waveform nor a spectrogram; like numpy its [ndarray] takes
    three arrays for a shape, a dtype and a buffer and refuses them; like
    json it cannot encode an array object. *)

Module Demo.

Definition windows : list string :=
  [ "boxcar"; "triang"; "blackman"; "hamming"; "hann"; "bartlett";
    "flattop"; "parzen"; "bohman"; "blackmanharris"; "nuttall"; "barthann";
    "cosine" ].

Definition energy (x : list Z) : Z := foldr (λ v acc, v * v + acc) 0 x.

Definition spectrogram_ (x : ndarray Z) (fs : Z) (w : string)
    : exn + (ndarray Z * ndarray Z * ndarray Z) :=
  if existsb (String.eqb w) windows then
    if Z.eqb fs 0 then inl ZeroDivisionError
    else
      match data x with
      | [] => inr (mk_ndarray (shape x) [], mk_ndarray (shape x) [],
                   mk_ndarray (shape x) [])
      | _ => inr (mk_ndarray [1%nat] [0], mk_ndarray [1%nat] [0],
                  mk_ndarray [1%nat; 1%nat] [energy (data x)])
      end
  else inl ValueError.

Definition bool_ (a : ndarray Z) : exn + bool :=
  match data a with
  | [] => inr false
  | [v] => inr (negb (Z.eqb v 0))
  | _ => inl ValueError
  end.

Definition feature (tag : Z) (y : option (ndarray Z)) (sr : Z)
    (S : option (ndarray Z)) (w : string) : exn + ndarray Z :=
  match y, S with
  | None, None => inl ParameterError
  | _, _ => inr (mk_ndarray [1%nat] [tag])
  end.

Definition ndarray_ (shape dtype buffer : ndarray Z) : exn + ndarray Z :=
  inl TypeError.

Definition is_array (v : pyval Z) : bool :=
  match v with
  | PyArray _ => true
  | _ => false
  end.

Definition dump (d : option (gmap string (pyval Z))) : option exn :=
  match d with
  | None => None
  | Some m =>
      if existsb (λ kv, is_array kv.2) (map_to_list m) then Some TypeError
      else None
  end.

Definition lib : externals Z Z :=
  mk_externals spectrogram_ bool_ (feature 1) (feature 2) (feature 3)
    ndarray_ (λ _, None) dump.

(** A fresh object, no output, no files. *)
Definition fresh : state Z :=
  mk_state (mk_spectrogram None None None None None) [] ∅.

(** The state after a transform of a two-sample mono waveform. *)
Definition transformed : state Z :=
  (_spectrogram lib (mono [1; 2]) 22050 "hann" fresh).2.

End Demo.

(** ** More inputs and callers *)

(** A 2-D array given by its rows, each of [m] elements: shape
    (len rows, m). *)
Definition table {A : Type} (m : nat) (rows : list (list A)) : ndarray A :=
  mk_ndarray [length rows; m] (concat rows).

(** The stand-in libraries on a file system that refuses every [open]. *)
Definition read_only_lib : externals Z Z :=
  mk_externals (signal_spectrogram Demo.lib) (ndarray_bool Demo.lib)
    (spectral_centroid Demo.lib) (spectral_rolloff Demo.lib)
    (melspectrogram Demo.lib) (np_ndarray Demo.lib)
    (λ _, Some OSError) (json_dump Demo.lib).

(** The stand-in libraries with an [ndarray] that refuses its arguments. *)
Definition strict_ndarray_lib : externals Z Z :=
  mk_externals (signal_spectrogram Demo.lib) (ndarray_bool Demo.lib)
    (spectral_centroid Demo.lib) (spectral_rolloff Demo.lib)
    (melspectrogram Demo.lib) (λ _ _ _, inl TypeError)
    (open_w Demo.lib) (json_dump Demo.lib).

(** An object with the arrays of a transform, and features assigned to
    the attribute by hand. *)
Definition featured : state Z :=
  mk_state
    (mk_spectrogram (sampleFreqs (self Demo.transformed))
       (sampleTime (self Demo.transformed))
       (colorMesh (self Demo.transformed))
       (Some (mk_ndarray [3%nat] [1; 2; 3])) None)
    [] ∅.

(** *** The script at the end of the file *)

Section Script.

Context {sample float : Type}.
Variable E : externals sample float.

(** [scipy.io.wavfile.read(path)]: the sample rate and the data. *)
Variable wavfile_read : string → exn + (Z * ndarray sample).

(** The methods the class defines. *)
Inductive method : Type :=
  | m__init__
  | m__call__
  | m_spectrogram
  | m_saveFormat
  | m_spectralFeatures.

(** The method of a given name, if the class has one. *)
Definition lookup_method (name : string) : option method :=
  if String.eqb name "__init__" then Some m__init__
  else if String.eqb name "__call__" then Some m__call__
  else if String.eqb name "_spectrogram" then Some m_spectrogram
  else if String.eqb name "_saveFormat" then Some m_saveFormat
  else if String.eqb name "_spectralFeatures" then Some m_spectralFeatures
  else None.

(** [obj.m()]: a call without arguments.  [__call__], [_spectrogram] and
    [_saveFormat] have parameters without defaults. *)
Definition call_without_arguments (m : method) : M float unit :=
  match m with
  | m__init__ => __init__
  | m__call__ | m_spectrogram | m_saveFormat => raise TypeError
  | m_spectralFeatures =>
      _spectralFeatures E None None default_sr default_window ≫= λ _, ret tt
  end.

(** The block under [if __name__ == '__main__']: the file is read, two
    objects are made one after the other ([self] is the one made last),
    and the method [_spectralCentroid] of the second is called. *)
Definition main : M float unit :=
  _ ← call (wavfile_read "tests/Adele_Million_Years_Ago_10.wav");
  __init__;;
  __init__;;
  match lookup_method "_spectralCentroid" with
  | None => raise AttributeError
  | Some m => call_without_arguments m
  end.

End Script.

(** * Proofs *)

(** The methods and the steps are unfolded by name only. *)
Arguments _spectrogram : simpl never.
Arguments _spectralFeatures : simpl never.
Arguments _saveFormat : simpl never.
Arguments Transform : simpl never.
Arguments FeatureExtraction : simpl never.
Arguments Serialization : simpl never.
Arguments PersistedDocument : simpl never.

Ltac unfold_M :=
  unfold mbind, M_bind, mret, M_ret, bind, call, ret, raise, get, put,
    print, write_file in *.

(** ** Channel selection *)

Lemma column0_interleave {A : Type} (a b : list A) :
  length a = length b → column0 (length a) 1 2 (interleave a b) = a.
Proof.
  revert b. induction a as [|x a IH]; intros [|y b] Hlen; simpl in *;
    try discriminate; [reflexivity|].
  f_equal. apply IH. congruence.
Qed.

Lemma first_channel_stereo {A : Type} (a b : list A) :
  length a = length b → first_channel (stereo a b) = inr (mono a).
Proof.
  intros Hlen. unfold first_channel, stereo, mono, slice_col0. simpl.
  by rewrite column0_interleave.
Qed.

Lemma first_channel_mono {A : Type} (a : list A) :
  first_channel (mono a) = inr (mono a).
Proof. reflexivity. Qed.

Section Methods.

Context {sample float : Type}.
Variable E : externals sample float.

(** ** Each method against its step *)

(** [_spectrogram] assigns the three attributes together when the
    transform returns, and nothing when it raises. *)
Lemma _spectrogram_run (songData : ndarray sample) (sr : Z) (w : string)
    (s : state float) :
  _spectrogram E songData sr w s =
    let out := (stdout s ++ stereo_notices songData)%list in
    match Transform E songData sr w with
    | inl e => (inl e, mk_state (self s) out (files s))
    | inr res => (inr tt, mk_state (retain res (self s)) out (files s))
    end.
Proof.
  destruct s as [o out fs].
  unfold _spectrogram, Transform, first_channel, stereo_notices, set_spectrum.
  unfold_M. simpl.
  destruct (decide (length (shape songData) = 2%nat)) as [H2|H2]; simpl.
  - destruct (slice_col0 songData) as [e|x]; simpl;
      rewrite <- ?app_assoc; simpl; [reflexivity|].
    destruct (signal_spectrogram E x sr w) as [e|[[f t] c]]; reflexivity.
  - rewrite app_nil_r.
    destruct (signal_spectrogram E songData sr w) as [e|[[f t] c]];
      reflexivity.
Qed.

(** [_spectralFeatures] prints only in its first branch. *)
Lemma _spectralFeatures_run (song : option (ndarray sample))
    (S : option (ndarray float)) (sr : Z) (w : string) (s : state float) :
  _spectralFeatures E song S sr w s =
    match FeatureExtraction E song S sr w with
    | inl e => (inl e, s)
    | inr None =>
        (inr None,
         mk_state (self s) (stdout s ++ [missing_input_message]) (files s))
    | inr (Some a) => (inr (Some a), s)
    end.
Proof.
  unfold _spectralFeatures, FeatureExtraction, features_of, and_then.
  unfold_M.
  destruct (not_song_or_sr E song sr) as [e|[|]]; try reflexivity.
  destruct (spectral_centroid E song sr S w) as [e|c]; [reflexivity|].
  destruct (spectral_rolloff E song sr S w) as [e|r]; [reflexivity|].
  destruct (melspectrogram E song sr S w) as [e|m]; [reflexivity|].
  destruct (np_ndarray E c r m) as [e|a]; reflexivity.
Qed.

(** On an object whose arrays are set, [_saveFormat] builds the document
    of §6 and writes it at [folder ++ filename ++ ".json"].  The compressed
    form reads [colorMesh] only. *)
Lemma _saveFormat_run (folder filename : string)
    (featurize compressed : bool) (s : state float)
    (f t c : ndarray float) :
  (compressed = false →
   sampleFreqs (self s) = Some f ∧ sampleTime (self s) = Some t) →
  colorMesh (self s) = Some c →
  _saveFormat E folder filename featurize compressed s =
    let d := PersistedDocument compressed featurize (mk_result f t c)
               (features (self s)) in
    let '(r, fs') := Serialization E d folder filename (files s) in
    (r, mk_state (with_container d (self s)) (stdout s) fs').
Proof.
  destruct s as [[sf st cm fb ct] out fs]. simpl. intros Hft ->.
  unfold _saveFormat, Serialization, PersistedDocument, dump_container,
    container_set_features, set_container, tolist, features_value,
    with_container.
  unfold_M.
  destruct compressed; [|destruct Hft as [-> ->]; [done|]]; simpl;
    destruct fb, featurize; simpl;
    destruct (open_w E ((folder +:+ filename) +:+ ".json")) as [e|];
    simpl; try reflexivity;
    match goal with
    | |- context [json_dump E ?d] => destruct (json_dump E d) as [e|]
    end; simpl; try reflexivity;
    by rewrite insert_insert_eq.
Qed.

(** ** The entry point *)

(** A run of [__call__], in full: the result, the object and the files
    are those of the pipeline by value, and the lines are printed in
    order. *)
Lemma __call___run (songData : ndarray sample) (songSR : Z) (window : string)
    (fileName path : option string) (compressed featureize : bool)
    (s : state float) :
  __call__ E songData songSR window fileName path compressed featureize s =
    let '(r, o', fs') :=
      Processor_run E songData songSR window fileName path compressed
        featureize (self s) (files s) in
    (r, mk_state o'
          (stdout s ++
             printed_lines E songData songSR window fileName path compressed
               featureize (self s) (files s))
          fs').
Proof.
  unfold __call__, Processor_run, printed_lines, set_features.
  unfold_M.
  rewrite _spectrogram_run.
  destruct s as [o out fs]; cbn [self stdout files].
  destruct (Transform E songData songSR window) as [e|[f t c]]; cbn.
  { by rewrite app_nil_r. }
  assert (Hsave : ∀ folder name fb lines,
    _saveFormat E folder name featureize compressed
      (mk_state (mk_spectrogram (Some f) (Some t) (Some c) fb (container o))
         lines fs) =
    let d := PersistedDocument compressed featureize (mk_result f t c) fb in
    let '(r, fs') := Serialization E d folder name fs in
    (r, mk_state (with_container d
                    (mk_spectrogram (Some f) (Some t) (Some c) fb
                       (container o))) lines fs')).
  { intros. by erewrite _saveFormat_run. }
  unfold retain, with_features.
  destruct featureize; cbn.
  - rewrite _spectralFeatures_run.
    destruct (FeatureExtraction E None (Some c) songSR window)
      as [e|fb]; cbn; [by rewrite app_nil_r|].
    destruct fb as [a|]; cbn;
      (destruct fileName as [name|]; cbn;
       [destruct (String.eqb name ""); cbn|];
       [by rewrite <- !app_assoc| |by rewrite <- !app_assoc]);
      (destruct path as [p|]; cbn; rewrite Hsave; cbn;
       match goal with
       | |- context [Serialization E ?d ?p ?n ?fs] =>
           destruct (Serialization E d p n fs) as [[e|[]] fs']
       end; cbn; by rewrite <- !app_assoc).
  - destruct fileName as [name|]; cbn;
      [destruct (String.eqb name ""); cbn|];
      [by rewrite <- !app_assoc| |by rewrite <- !app_assoc].
    destruct path as [p|]; cbn; rewrite Hsave; cbn;
      match goal with
      | |- context [Serialization E ?d ?p ?n ?fs] =>
          destruct (Serialization E d p n fs) as [[e|[]] fs']
      end; cbn; by rewrite <- !app_assoc.
Qed.

(** ** Files *)

(** The keys of a saved document. *)
Lemma PersistedDocument_dom (compressed includeFeatures : bool)
    (res : SpectrogramResult) (fb : option (ndarray float)) :
  dom (PersistedDocument compressed includeFeatures res fb) =
    (if compressed then {["color_mesh"]}
     else {["sample_frequencies"; "sample_time"; "color_mesh"]}) ∪
    (if includeFeatures then {["features"]} else (∅ : gset string)).
Proof.
  unfold PersistedDocument.
  destruct compressed, includeFeatures;
    rewrite ?dom_insert_L, ?dom_singleton_L; set_solver.
Qed.

Lemma PersistedDocument_features (compressed : bool)
    (res : SpectrogramResult) (fb : option (ndarray float)) :
  PersistedDocument compressed true res fb !! "features" =
    Some (from_option PyArray PyNone fb).
Proof. unfold PersistedDocument. by rewrite lookup_insert_eq. Qed.

(** Serialization touches one path, and on success leaves the document
    there. *)
Lemma Serialization_files (d : gmap string (pyval float))
    (folder name : string) (fs : gmap string (json_file float)) :
  let r := Serialization E d folder name fs in
  (∀ p, p ≠ (folder +:+ name) +:+ ".json" → r.2 !! p = fs !! p) ∧
  (r.1 = inr tt →
   r.2 !! ((folder +:+ name) +:+ ".json") = Some (Dumped (Some d))).
Proof.
  unfold Serialization. cbv zeta.
  destruct (open_w E _) as [e|]; cbn; [by split|].
  destruct (json_dump E _) as [e|]; cbn.
  - split; [|done]. intros p Hp. by rewrite lookup_insert_ne.
  - split; [|by rewrite lookup_insert_eq].
    intros p Hp. by rewrite lookup_insert_ne.
Qed.

(** [_saveFormat] raises before it opens a file when an array it needs is
    missing. *)
Lemma _saveFormat_missing (folder filename : string)
    (featurize compressed : bool) (s : state float) :
  colorMesh (self s) = None ∨
  (compressed = false ∧
   (sampleFreqs (self s) = None ∨ sampleTime (self s) = None)) →
  let r := _saveFormat E folder filename featurize compressed s in
  r.1 = inl AttributeError ∧ files r.2 = files s.
Proof.
  destruct s as [[sf st cm fb ct] out fs]. cbn.
  unfold _saveFormat, tolist. unfold_M. cbn.
  intros H. destruct compressed, sf, st, cm; cbn; try done;
    destruct H as [H|[H [H'|H']]]; discriminate.
Qed.

(** The arrays [_saveFormat] reads are all set, or one is missing. *)
Lemma arrays_set_or_missing (compressed : bool) (o : spectrogram float) :
  (∃ f t c,
     (compressed = false →
      sampleFreqs o = Some f ∧ sampleTime o = Some t) ∧
     colorMesh o = Some c) ∨
  (colorMesh o = None ∨
   (compressed = false ∧ (sampleFreqs o = None ∨ sampleTime o = None))).
Proof.
  destruct o as [sf st [c|] fb ct]; cbn; [|by right; left].
  destruct compressed; [left; by exists c, c, c|].
  destruct sf as [f|]; [|right; right; by split; [|left]].
  destruct st as [t|]; [|right; right; by split; [|right]].
  left. by exists f, t, c.
Qed.

(** [_saveFormat] on any object: it touches one path, and when it returns
    the document is there, with the keys of §6. *)
Lemma _saveFormat_saved (folder filename : string)
    (featurize compressed : bool) (s : state float) :
  let target := (folder +:+ filename) +:+ ".json" in
  let r := _saveFormat E folder filename featurize compressed s in
  (∀ p, p ≠ target → files r.2 !! p = files s !! p) ∧
  (r.1 = inr tt →
   ∃ d, container (self r.2) = Some d ∧
        files r.2 !! target = Some (Dumped (Some d)) ∧
        dom d =
          (if compressed then {["color_mesh"]}
           else {["sample_frequencies"; "sample_time"; "color_mesh"]}) ∪
          (if featurize then {["features"]} else (∅ : gset string)) ∧
        (featurize = true →
         d !! "features" = Some (features_value (self s)))).
Proof.
  cbv zeta.
  destruct (arrays_set_or_missing compressed (self s))
    as [(f & t & c & Hft & Hc)|Hnone].
  - rewrite (_saveFormat_run _ _ _ _ _ f t c Hft Hc). cbv zeta.
    pose proof (Serialization_files
      (PersistedDocument compressed featurize (mk_result f t c)
         (features (self s))) folder filename (files s)) as [Hother Hok].
    destruct (Serialization E _ folder filename (files s)) as [r fs'].
    cbn in *. split; [exact Hother|]. intros Hr.
    eexists. split; [reflexivity|]. split; [by apply Hok|].
    split; [apply PersistedDocument_dom|].
    intros ->. rewrite PersistedDocument_features.
    unfold features_value. by destruct (features (self s)).
  - destruct (_saveFormat_missing folder filename featurize compressed s
                Hnone) as [Hr Hfs].
    rewrite Hr, Hfs. by split.
Qed.

(** ** Transform *)

(** C1. A stereo waveform with channels [A] and [B] and the mono waveform
    [A] give the same transform: the same result or the same exception,
    and the same retained arrays.  It holds for every sample rate and
    every window name. *)
Theorem stereo_same_as_mono (A B : list sample) (sr : Z) (w : string)
    (s : state float) :
  length A = length B →
  Transform E (stereo A B) sr w = Transform E (mono A) sr w ∧
  observe (_spectrogram E (stereo A B) sr w s) =
    observe (_spectrogram E (mono A) sr w s).
Proof.
  intros Hlen.
  assert (HT : Transform E (stereo A B) sr w = Transform E (mono A) sr w).
  { unfold Transform. by rewrite first_channel_stereo, first_channel_mono. }
  split; [exact HT|].
  rewrite !_spectrogram_run, HT. unfold observe.
  by destruct (Transform E (mono A) sr w).
Qed.

(** C6, as the code has it. [_spectrogram] does not look at the window
    name: it hands it to the library.  When the library raises, the method
    raises the same exception and the object and the files are as before;
    when the library returns, the three arrays are replaced together. *)
Theorem window_rejected_by_library (songData x : ndarray sample) (sr : Z)
    (w : string) (s : state float) :
  first_channel songData = inr x →
  let r := _spectrogram E songData sr w s in
  match signal_spectrogram E x sr w with
  | inl e => r.1 = inl e ∧ self r.2 = self s ∧ files r.2 = files s
  | inr (f, t, c) =>
      r.1 = inr tt ∧
      self r.2 = mk_spectrogram (Some f) (Some t) (Some c)
                   (features (self s)) (container (self s)) ∧
      files r.2 = files s
  end.
Proof.
  intros Hx. cbv zeta. rewrite _spectrogram_run. unfold Transform.
  rewrite Hx. cbn.
  by destruct (signal_spectrogram E x sr w) as [e|[[f t] c]].
Qed.

(** ** Orchestration *)

(** C7. [__call__] is the pipeline of §4.4: it leaves the result, the
    object and the files that [Processor_run] computes by value.  The
    transform comes first and its exception ends the run; feature
    extraction runs exactly when [featureize] is set, on the matrix just
    computed and the given sample rate; serialization runs exactly when
    [fileName] is a non-empty string, with both flags. *)
Theorem call_refines_Processor_run (songData : ndarray sample) (songSR : Z)
    (window : string) (fileName path : option string)
    (compressed featureize : bool) (s : state float) :
  observe (__call__ E songData songSR window fileName path compressed
             featureize s) =
  Processor_run E songData songSR window fileName path compressed featureize
    (self s) (files s).
Proof.
  rewrite __call___run. unfold observe.
  by destruct (Processor_run _ _ _ _ _ _ _ _ _ _) as [[r o'] fs'].
Qed.

(** C3, as the code has it. [__call__] checks neither the waveform nor the
    sample rate.  When the library raises on the selected channel,
    [__call__] raises the same exception, the object is as before and no
    file is written. *)
Theorem transform_failure_ends_call (songData x : ndarray sample) (songSR : Z)
    (window : string) (fileName path : option string)
    (compressed featureize : bool) (s : state float) (e : exn) :
  first_channel songData = inr x →
  signal_spectrogram E x songSR window = inl e →
  observe (__call__ E songData songSR window fileName path compressed
             featureize s) = (inl e, self s, files s).
Proof.
  intros Hx He. rewrite __call___run.
  unfold Processor_run, Transform. rewrite Hx. cbn. by rewrite He.
Qed.

(** ** Serialization *)

(** C2, as the code has it. When [_saveFormat] returns, the document in
    the file has the key [color_mesh] alone when [compressed] is set and
    the three keys [sample_frequencies], [sample_time], [color_mesh]
    otherwise, and in both cases the key [features] besides exactly when
    [featurize] is set: its value is the attribute [features], [None]
    included. *)
Theorem saved_document_keys (folder filename : string)
    (featurize compressed : bool) (s : state float) :
  let r := _saveFormat E folder filename featurize compressed s in
  r.1 = inr tt →
  ∃ d, files r.2 !! ((folder +:+ filename) +:+ ".json") =
         Some (Dumped (Some d)) ∧
       dom d =
         (if compressed then {["color_mesh"]}
          else {["sample_frequencies"; "sample_time"; "color_mesh"]}) ∪
         (if featurize then {["features"]} else (∅ : gset string)) ∧
       ("features" ∈ dom d ↔ featurize = true) ∧
       (featurize = true →
        d !! "features" = Some (features_value (self s))).
Proof.
  cbv zeta. intros Hok.
  destruct (_saveFormat_saved folder filename featurize compressed s)
    as [_ Hsaved].
  destruct (Hsaved Hok) as (d & _ & Hfile & Hdom & Hval).
  exists d. split; [exact Hfile|]. split; [exact Hdom|].
  split; [|exact Hval].
  rewrite Hdom.
  destruct compressed, featurize;
    rewrite ?elem_of_union, ?elem_of_singleton, ?elem_of_empty; split;
    try done; try (by right); intros H; intuition discriminate.
Qed.

(** C8. The file written is the one at [folder ++ filename ++ ".json"],
    nothing put in between.  [_saveFormat] leaves every other path as it
    was; when it returns, the document is at that path; and it does
    return, with the files changed at that path and nowhere else, when the
    arrays are set and [open] and [json.dump] raise nothing.  So it is
    for [__call__] with a file name, which takes the empty string for the
    folder when [path] is [None]. *)
Theorem output_file_path (folder filename : string)
    (featurize compressed : bool) (s : state float)
    (songData : ndarray sample) (songSR : Z) (window name : string)
    (path : option string) (f t c : ndarray float)
    (res : SpectrogramResult) (fb : option (ndarray float)) :
  name ≠ "" →
  let saved (target : string) (r : (exn + unit) * state float) :=
    (∀ p, p ≠ target → files r.2 !! p = files s !! p) ∧
    (r.1 = inr tt →
     ∃ d, container (self r.2) = Some d ∧
          files r.2 !! target = Some (Dumped (Some d))) in
  let written (target : string) (d : gmap string (pyval float))
      (r : (exn + unit) * state float) :=
    open_w E target = None →
    json_dump E (Some d) = None →
    r.1 = inr tt ∧
    container (self r.2) = Some d ∧
    files r.2 = <[target := Dumped (Some d)]> (files s) in
  let r := _saveFormat E folder filename featurize compressed s in
  let r' := __call__ E songData songSR window (Some name) path compressed
              featurize s in
  saved ((folder +:+ filename) +:+ ".json") r ∧
  (sampleFreqs (self s) = Some f →
   sampleTime (self s) = Some t →
   colorMesh (self s) = Some c →
   written ((folder +:+ filename) +:+ ".json")
     (PersistedDocument compressed featurize (mk_result f t c)
        (features (self s))) r) ∧
  saved ((default "" path +:+ name) +:+ ".json") r' ∧
  (Transform E songData songSR window = inr res →
   (if featurize
    then FeatureExtraction E None (Some (intensity res)) songSR window
    else inr (features (self s))) = inr fb →
   written ((default "" path +:+ name) +:+ ".json")
     (PersistedDocument compressed featurize res fb) r').
Proof.
  intros Hname. cbv zeta. apply String.eqb_neq in Hname.
  split; [|split; [|split]].
  - destruct (_saveFormat_saved folder filename featurize compressed s)
      as [Hother Hsaved].
    split; [exact Hother|]. intros Hok.
    destruct (Hsaved Hok) as (d & Hc & Hfile & _). by exists d.
  - intros Hf Ht Hc Hopen Hdump.
    rewrite (_saveFormat_run _ _ _ _ _ f t c) by done.
    unfold Serialization. cbv zeta. by rewrite Hopen, Hdump.
  - rewrite __call___run. unfold Processor_run.
    destruct (Transform E songData songSR window) as [e|res']; cbn;
      [by split|].
    destruct (if featurize then _ else _) as [e|fb']; cbn; [by split|].
    rewrite Hname.
    pose proof (Serialization_files
      (PersistedDocument compressed featurize res' fb') (default "" path)
      name (files s)) as [Hother Hok].
    destruct (Serialization E _ _ name (files s)) as [r fs']. cbn in *.
    split; [exact Hother|]. intros Hr. eexists. split; [reflexivity|].
    by apply Hok.
  - intros Hres Hfb Hopen Hdump.
    rewrite __call___run. unfold Processor_run.
    rewrite Hres. cbv zeta. rewrite Hfb, Hname.
    unfold Serialization. cbv zeta. by rewrite Hopen, Hdump.
Qed.

(** ** The attribute [features] *)

(** C9. A call with [featureize] unset leaves the attribute [features] as
    it was, whatever the call does otherwise, and it is [None] after
    [__init__]; [container] changes only when a file name is given. *)
Theorem features_kept_without_featureize (songData : ndarray sample)
    (songSR : Z) (window : string) (fileName path : option string)
    (compressed : bool) (s : state float) :
  let s' := (__call__ E songData songSR window fileName path compressed
               false s).2 in
  features (self s') = features (self s) ∧
  features (self (__init__ s).2) = None ∧
  (truthy fileName = false → container (self s') = container (self s)).
Proof.
  cbv zeta. rewrite __call___run. unfold Processor_run.
  destruct (Transform E songData songSR window) as [e|res]; cbn; [done|].
  destruct fileName as [name|]; cbn; [|done].
  destruct (String.eqb name ""); cbn; [done|].
  destruct (Serialization E _ _ name (files s)) as [r fs']. cbn.
  split; [done|]. split; [done|]. discriminate.
Qed.

(** ** Feature extraction *)

(** What the method sets out to return: an array is returned only as the
    result of [ndarray] on three values, the spectral centroid, the
    spectral roll-off and the mel spectrogram, each computed by its own
    library call from the arguments of the method. *)
Lemma returned_by_ndarray (song : option (ndarray sample))
    (S : option (ndarray float)) (sr : Z) (w : string) (s : state float)
    (fb : ndarray float) :
  (_spectralFeatures E song S sr w s).1 = inr (Some fb) →
  (∃ c r m,
     spectral_centroid E song sr S w = inr c ∧
     spectral_rolloff E song sr S w = inr r ∧
     melspectrogram E song sr S w = inr m ∧
     np_ndarray E c r m = inr fb) ∧
  (_spectralFeatures E song S sr w s).2 = s.
Proof.
  rewrite _spectralFeatures_run. unfold FeatureExtraction, and_then.
  destruct (not_song_or_sr E song sr) as [e|[|]]; cbn; try discriminate.
  destruct (spectral_centroid E song sr S w) as [e|c]; [discriminate|].
  destruct (spectral_rolloff E song sr S w) as [e|r]; [discriminate|].
  destruct (melspectrogram E song sr S w) as [e|m]; [discriminate|].
  destruct (np_ndarray E c r m) as [e|a] eqn:Ha; cbn; [discriminate|].
  intros [= ->]. split; [|done]. by exists c, r, m.
Qed.

(** The test of [_spectralFeatures] holds only for a sample rate of 0. *)
Lemma not_song_or_sr_true (song : option (ndarray sample)) (sr : Z) :
  not_song_or_sr E song sr = inr true → sr = 0.
Proof.
  unfold not_song_or_sr.
  destruct song as [a|]; [destruct (ndarray_bool E a) as [e|[|]]|];
    try discriminate; intros [= H]; by apply Z.eqb_eq.
Qed.

(** With a sample rate other than 0 the method is its [else] branch or
    the exception of the truth test. *)
Lemma _spectralFeatures_nonzero (song : option (ndarray sample))
    (S : option (ndarray float)) (sr : Z) (w : string) (s : state float) :
  sr ≠ 0 →
  (_spectralFeatures E song S sr w s).1 ≠ inr None ∧
  (_spectralFeatures E song S sr w s).2 = s.
Proof.
  intros Hsr. rewrite _spectralFeatures_run.
  unfold FeatureExtraction, and_then.
  destruct (not_song_or_sr E song sr) as [e|[|]] eqn:Hb; cbn; [done| |].
  { by apply not_song_or_sr_true in Hb. }
  destruct (spectral_centroid E song sr S w) as [e|c]; [done|].
  destruct (spectral_rolloff E song sr S w) as [e|r]; [done|].
  destruct (melspectrogram E song sr S w) as [e|m]; [done|].
  by destruct (np_ndarray E c r m) as [e|a].
Qed.

Lemma FeatureExtraction_nonzero (song : option (ndarray sample))
    (S : option (ndarray float)) (sr : Z) (w : string) :
  sr ≠ 0 → FeatureExtraction E song S sr w ≠ inr None.
Proof.
  intros Hsr Hnone.
  pose proof (_spectralFeatures_nonzero song S sr w
                (mk_state (mk_spectrogram None None None None None) [] ∅)
                Hsr) as [Hres _].
  rewrite _spectralFeatures_run, Hnone in Hres. by apply Hres.
Qed.

Lemma _spectralFeatures_None_nonzero (S : option (ndarray float)) (sr : Z)
    (w : string) (s : state float) :
  sr ≠ 0 →
  _spectralFeatures E None S sr w s = features_of E None S sr w s.
Proof.
  intros Hsr. unfold _spectralFeatures, not_song_or_sr. unfold_M.
  apply Z.eqb_neq in Hsr. by rewrite Hsr.
Qed.


(** C5, on the code as it is. The three values are handed to [ndarray] as
    its first three arguments, which numpy reads as a shape, a dtype and a
    buffer, and refuses.  With such an [ndarray] the method returns an
    array on no input: once the three library calls have returned, it
    raises [TypeError]. *)
Theorem bundle_never_built (song : option (ndarray sample))
    (S : option (ndarray float)) (sr : Z) (w : string) (s : state float) :
  (∀ c r m, np_ndarray E c r m = inl TypeError) →
  let run := _spectralFeatures E song S sr w s in
  (∀ fb, run.1 ≠ inr (Some fb)) ∧
  (∀ c r m,
     not_song_or_sr E song sr = inr false →
     spectral_centroid E song sr S w = inr c →
     spectral_rolloff E song sr S w = inr r →
     melspectrogram E song sr S w = inr m →
     run = (inl TypeError, s)).
Proof.
  intros Hnd. cbv zeta. rewrite _spectralFeatures_run.
  unfold FeatureExtraction, and_then. split.
  - intros fb.
    destruct (not_song_or_sr E song sr) as [e|[|]]; [done|done|].
    destruct (spectral_centroid E song sr S w) as [e|c]; [done|].
    destruct (spectral_rolloff E song sr S w) as [e|r]; [done|].
    destruct (melspectrogram E song sr S w) as [e|m]; [done|].
    by rewrite Hnd.
  - intros c r m -> -> -> ->. by rewrite Hnd.
Qed.

(** C10. The branch that reports a missing input is guarded by
    [not (song or sr)], which does not read [S].  With a sample rate
    other than 0 the test is never true: nothing is printed, [None] is
    not returned, and a call with neither a waveform nor a spectrogram
    goes on to the library calls.  So it is for the call made by
    [__call__]: the message is not among the lines it prints. *)
Theorem error_branch_unreachable (song : option (ndarray sample))
    (S : option (ndarray float)) (sr : Z) (w : string) (s : state float)
    (songData : ndarray sample) (fileName path : option string)
    (compressed featureize : bool) :
  sr ≠ 0 →
  not_song_or_sr E song sr ≠ inr true ∧
  (_spectralFeatures E song S sr w s).1 ≠ inr None ∧
  (_spectralFeatures E song S sr w s).2 = s ∧
  _spectralFeatures E None None sr w s = features_of E None None sr w s ∧
  missing_input_message ∉
    printed_lines E songData sr w fileName path compressed featureize
      (self s) (files s).
Proof.
  intros Hsr.
  split; [intros Hb; by apply not_song_or_sr_true in Hb|].
  split; [by apply _spectralFeatures_nonzero|].
  split; [by apply _spectralFeatures_nonzero|].
  split; [by apply _spectralFeatures_None_nonzero|].
  unfold printed_lines. rewrite elem_of_app. intros [Hin|Hin].
  { unfold stereo_notices in Hin. destruct (decide _);
      rewrite ?elem_of_cons, ?elem_of_nil in Hin; intuition discriminate. }
  destruct (Transform E songData sr w) as [e|res];
    [by apply elem_of_nil in Hin|].
  cbv zeta in Hin.
  destruct (if featureize then _ else _) as [e|fb] eqn:Hfb;
    [by apply elem_of_nil in Hin|].
  assert (Hnone : featureize && bool_decide (fb = None) = false).
  { destruct featureize; [|done]. cbn.
    apply bool_decide_eq_false. intros ->.
    by apply (FeatureExtraction_nonzero None (Some (intensity res)) sr w). }
  rewrite Hnone in Hin. cbn in Hin.
  apply elem_of_cons in Hin as [Hin|Hin]; [discriminate|].
  destruct fileName as [name|]; [|by apply elem_of_nil in Hin].
  destruct (String.eqb name ""); [by apply elem_of_nil in Hin|].
  destruct (Serialization E _ _ name (files s)).1;
    [by apply elem_of_nil in Hin|].
  destruct path; cbn in Hin;
    rewrite ?elem_of_cons, ?elem_of_nil in Hin; intuition discriminate.
Qed.

End Methods.

(** *** Runs with the stand-in library *)

Lemma stereo_same_as_mono_witness :
  length [1; 2] = length [3; 4] ∧
  (Transform Demo.lib (stereo [1; 2] [3; 4]) 22050 "hann" =
     Transform Demo.lib (mono [1; 2]) 22050 "hann" ∧
   observe (_spectrogram Demo.lib (stereo [1; 2] [3; 4]) 22050 "hann"
              Demo.fresh) =
     observe (_spectrogram Demo.lib (mono [1; 2]) 22050 "hann" Demo.fresh)).
Proof.
  split; [reflexivity|].
  apply (stereo_same_as_mono Demo.lib [1; 2] [3; 4]). reflexivity.
Defined.

(** A name the library does not know: the exception, and nothing changed. *)
Lemma window_rejected_by_library_witness :
  first_channel (mono [1; 2]) = inr (mono [1; 2]) ∧
  (let r := _spectrogram Demo.lib (mono [1; 2]) 22050 "sinc" Demo.fresh in
   r.1 = inl ValueError ∧
   self r.2 = self Demo.fresh ∧ files r.2 = files Demo.fresh).
Proof.
  split; [reflexivity|].
  exact (window_rejected_by_library Demo.lib (mono [1; 2]) (mono [1; 2])
           22050 "sinc" Demo.fresh eq_refl).
Defined.

(** C6 fails as stated. "cosine" is not among the documented options, the
    library takes it, and [_spectrogram] returns with the arrays replaced:
    the method has no list of names to check against. *)
Lemma unlisted_window_accepted :
("cosine" ∉ window_options) ∧
  (let r := _spectrogram Demo.lib (mono [1; 2]) 22050 "cosine" Demo.fresh in
   r.1 = inr tt ∧ colorMesh (self r.2) ≠ colorMesh (self Demo.fresh)).
Proof.
  split.
  - unfold window_options. intros H.
    repeat (apply elem_of_cons in H as [H|H]; [discriminate|]).
    by apply elem_of_nil in H.
  - split; [reflexivity|]. vm_compute. discriminate.
Qed.

(** A sample rate of 0: the library raises, the call ends there. *)
Lemma transform_failure_ends_call_witness :
  first_channel (mono [1; 2]) = inr (mono [1; 2]) ∧
  signal_spectrogram Demo.lib (mono [1; 2]) 0 "hann" = inl ZeroDivisionError ∧
  observe (__call__ Demo.lib (mono [1; 2]) 0 "hann" (Some "out") None false
             false Demo.fresh) =
    (inl ZeroDivisionError, self Demo.fresh, files Demo.fresh).
Proof.
  split; [reflexivity|]. split; [reflexivity|].
  apply (transform_failure_ends_call Demo.lib (mono [1; 2]) (mono [1; 2]));
    reflexivity.
Defined.

(** C3 fails as stated. On an empty waveform, and on a negative sample
    rate, the library returns and so does [__call__]: the arrays are
    replaced and the file is written.  The code has no check of its own. *)
Lemma empty_waveform_accepted :
  let r := __call__ Demo.lib (mono []) 22050 "hann" (Some "out") None false
             false Demo.fresh in
  let r' := __call__ Demo.lib (mono [1; 2]) (-22050) "hann" (Some "out") None
              false false Demo.fresh in
  data (mono (@nil Z)) = [] ∧
  r.1 = inr tt ∧
  colorMesh (self r.2) ≠ colorMesh (self Demo.fresh) ∧
  is_Some (files r.2 !! "out.json") ∧
  files Demo.fresh !! "out.json" = None ∧
  r'.1 = inr tt ∧
  is_Some (files r'.2 !! "out.json").
Proof.
  cbv zeta. split; [reflexivity|]. split; [reflexivity|].
  split; [vm_compute; discriminate|].
  split; [vm_compute; eexists; reflexivity|].
  split; [reflexivity|]. split; [reflexivity|].
  vm_compute; eexists; reflexivity.
Qed.

(** A save with [featurize] set, on an object without features. *)
Lemma saved_document_keys_witness :
  let r := _saveFormat Demo.lib "" "out" true false Demo.transformed in
  r.1 = inr tt ∧
  ∃ d, files r.2 !! (("" +:+ "out") +:+ ".json") = Some (Dumped (Some d)) ∧
       dom d =
         ({["sample_frequencies"; "sample_time"; "color_mesh"]} : gset string)
           ∪ {["features"]} ∧
       ("features" ∈ dom d ↔ true = true) ∧
       (true = true →
        d !! "features" = Some (features_value (self Demo.transformed))).
Proof.
  cbv zeta. split; [reflexivity|].
  apply (saved_document_keys Demo.lib "" "out" true false Demo.transformed).
  reflexivity.
Defined.

(** C2 fails as stated. The object has no features, [featurize] is set,
    and the document saved has the key [features] all the same, with the
    value [None]. *)
Lemma features_key_without_bundle :
  let r := _saveFormat Demo.lib "" "out" true false Demo.transformed in
  features (self Demo.transformed) = None ∧
  r.1 = inr tt ∧
  (∃ d, files r.2 !! "out.json" = Some (Dumped (Some d)) ∧
        "features" ∈ dom d ∧ d !! "features" = Some PyNone) ∧
  ¬ (∀ d, files r.2 !! "out.json" = Some (Dumped (Some d)) →
          ("features" ∈ dom d ↔
           true = true ∧ is_Some (features (self Demo.transformed)))).
Proof.
  cbv zeta.
  destruct (_saveFormat_saved Demo.lib "" "out" true false Demo.transformed)
    as [_ Hsaved].
  destruct (Hsaved eq_refl) as (d & _ & Hfile & Hdom & Hval).
  assert (Hin : "features" ∈ dom d).
  { rewrite Hdom. apply elem_of_union_r. by apply elem_of_singleton. }
  split; [reflexivity|]. split; [reflexivity|]. split.
  - exists d. split; [exact Hfile|]. split; [exact Hin|]. by apply Hval.
  - intros Hclaim.
    destruct (proj1 (Hclaim d Hfile) Hin) as [_ [a Ha]]. discriminate Ha.
Qed.

(** A save under a folder, directly and from the entry point: both
    return, and the document is in the file. *)
Lemma output_file_path_witness :
  let doc : gmap string (pyval Z) :=
    {[ "color_mesh" := PyList (mk_ndarray [1%nat; 1%nat] [5]) ]} in
  let r := _saveFormat Demo.lib "/tmp/" "out" false true Demo.transformed in
  let r' := __call__ Demo.lib (mono [1; 2]) 22050 "hann" (Some "out")
              (Some "/tmp/") true false Demo.fresh in
  "out" ≠ "" ∧
  (r.1 = inr tt ∧
   container (self r.2) = Some doc ∧
   files r.2 = <["/tmp/out.json" := Dumped (Some doc)]> ∅) ∧
  (r'.1 = inr tt ∧
   container (self r'.2) = Some doc ∧
   files r'.2 = <["/tmp/out.json" := Dumped (Some doc)]> ∅).
Proof.
  cbv zeta. split; [discriminate|].
  destruct (output_file_path Demo.lib "/tmp/" "out" false true
              Demo.transformed (mono [1; 2]) 22050 "hann" "out"
              (Some "/tmp/") (mk_ndarray [1%nat] [0]) (mk_ndarray [1%nat] [0])
              (mk_ndarray [1%nat; 1%nat] [5])
              (mk_result (mk_ndarray [1%nat] [0]) (mk_ndarray [1%nat] [0])
                 (mk_ndarray [1%nat; 1%nat] [5]))
              None ltac:(discriminate)) as (_ & Hsave & _ & Hcall).
  split.
  - exact (Hsave eq_refl eq_refl eq_refl eq_refl eq_refl).
  - exact (Hcall eq_refl eq_refl eq_refl eq_refl).
Defined.

(** A call without a file name and without features. *)
Lemma features_kept_without_featureize_witness :
  let s' := (__call__ Demo.lib (mono [1; 2]) 22050 "hann" None None false
               false Demo.fresh).2 in
  truthy None = false ∧
  features (self s') = None ∧
  container (self s') = None.
Proof.
  cbv zeta. split; [reflexivity|].
  destruct (features_kept_without_featureize Demo.lib (mono [1; 2]) 22050
              "hann" None None false Demo.fresh) as (Hf & _ & Hc).
  split; [exact Hf|]. exact (Hc eq_refl).
Defined.

(** The call [__call__] makes for the features: the three library calls
    return and [ndarray] raises. *)
Lemma bundle_never_built_witness :
  let S := colorMesh (self Demo.transformed) in
  let run := _spectralFeatures Demo.lib None S 22050 "hann"
               Demo.transformed in
  (∀ c r m, np_ndarray Demo.lib c r m = inl TypeError) ∧
  (∀ fb, run.1 ≠ inr (Some fb)) ∧
  run = (inl TypeError, Demo.transformed).
Proof.
  cbv zeta.
  assert (Hnd : ∀ c r m, np_ndarray Demo.lib c r m = inl TypeError)
    by reflexivity.
  split; [exact Hnd|].
  destruct (bundle_never_built Demo.lib None
              (colorMesh (self Demo.transformed)) 22050 "hann"
              Demo.transformed Hnd) as [Hno Hraise].
  split; [exact Hno|].
  exact (Hraise (mk_ndarray [1%nat] [1]) (mk_ndarray [1%nat] [2])
           (mk_ndarray [1%nat] [3]) eq_refl eq_refl eq_refl eq_refl).
Defined.


(** The call with nothing supplied, run: the library raises, nothing is
    printed. *)
Example missing_input_run :
  _spectralFeatures Demo.lib None None default_sr default_window Demo.fresh =
    (inl ParameterError, Demo.fresh).
Proof. reflexivity. Qed.

(** Only a sample rate of 0 reaches the message. *)
Example missing_input_reported_at_zero :
  _spectralFeatures Demo.lib None None 0 default_window Demo.fresh =
    (inr None,
     mk_state (self Demo.fresh) [missing_input_message] (files Demo.fresh)).
Proof. reflexivity. Qed.

(** The default sample rate, from the entry point and directly. *)
Lemma error_branch_unreachable_witness :
  default_sr ≠ 0 ∧
  not_song_or_sr Demo.lib None default_sr ≠ inr true ∧
  (_spectralFeatures Demo.lib None None default_sr "hann" Demo.fresh).1 ≠
    inr None ∧
  (_spectralFeatures Demo.lib None None default_sr "hann" Demo.fresh).2 =
    Demo.fresh ∧
  _spectralFeatures Demo.lib None None default_sr "hann" Demo.fresh =
    features_of Demo.lib None None default_sr "hann" Demo.fresh ∧
  missing_input_message ∉
    printed_lines Demo.lib (mono [1; 2]) default_sr "hann" (Some "out") None
      false true (self Demo.fresh) (files Demo.fresh).
Proof.
  split; [discriminate|].
  apply (error_branch_unreachable Demo.lib None None default_sr "hann"
           Demo.fresh (mono [1; 2]) (Some "out") None false true).
  discriminate.
Defined.

(** * Further properties of the methods *)

(** ** Tables of any width *)

Lemma column0_concat {A : Type} (m : nat) (rows : list (list A)) :
  Forall (λ r, length r = S m) rows →
  column0 (length rows) 1 (S m * 1) (concat rows) = omap head rows.
Proof.
  rewrite Nat.mul_1_r.
  induction rows as [|r rows IH]; intros Hrows; [reflexivity|].
  apply Forall_cons in Hrows as [Hr Hrows].
  destruct r as [|x r]; [discriminate|].
  injection Hr as Hr. cbn. f_equal.
  rewrite <- Hr at 2. rewrite drop_app_length. by apply IH.
Qed.

Lemma length_omap_head {A : Type} (m : nat) (rows : list (list A)) :
  Forall (λ r, length r = S m) rows →
  length (omap head rows) = length rows.
Proof.
  induction rows as [|r rows IH]; intros Hrows; [reflexivity|].
  apply Forall_cons in Hrows as [Hr Hrows].
  destruct r as [|x r]; [discriminate|]. cbn. f_equal. by apply IH.
Qed.

Section More.

Context {sample float : Type}.
Variable E : externals sample float.

(** X1. For a 2-D array of any width, [_spectrogram] works on the first
    element of every row and on nothing else: the run is that of the mono
    waveform made of these elements.  A channel-major table of shape
    (2, n) is thus reduced to two samples. *)
Theorem first_column_of_table (m : nat) (rows : list (list sample))
    (sr : Z) (w : string) (s : state float) :
  Forall (λ r, length r = m) rows →
  (0 < m)%nat →
  first_channel (table m rows) = inr (mono (omap head rows)) ∧
  observe (_spectrogram E (table m rows) sr w s) =
    observe (_spectrogram E (mono (omap head rows)) sr w s).
Proof.
  intros Hrows Hm. destruct m as [|m]; [lia|].
  assert (Hfirst :
    first_channel (table (S m) rows) = inr (mono (omap head rows))).
  { unfold first_channel, table, mono, slice_col0. cbn [shape data length].
    cbn [decide]. rewrite decide_True by done. cbn [foldr].
    by rewrite column0_concat, (length_omap_head m). }
  split; [exact Hfirst|].
  rewrite !_spectrogram_run. unfold Transform.
  rewrite Hfirst, first_channel_mono. unfold observe. cbn.
  by destruct (signal_spectrogram E _ sr w) as [e|[[f t] c]].
Qed.

(** X2. A 2-D array whose second axis is empty has no column 0:
    [_spectrogram] prints its two notices and raises [IndexError],
    whatever the libraries are; the object and the files are as before. *)
Theorem empty_second_axis (n : nat) (songData : ndarray sample) (sr : Z)
    (w : string) (s : state float) :
  shape songData = [n; 0%nat] →
  _spectrogram E songData sr w s =
    (inl IndexError,
     mk_state (self s) (stdout s ++ ["song is stereo"; "Converting .."])
       (files s)).
Proof.
  intros Hshape. rewrite _spectrogram_run.
  unfold Transform, first_channel, stereo_notices, slice_col0.
  rewrite Hshape. by rewrite !decide_True by done.
Qed.

(** ** Saving *)

(** X3. [_saveFormat] needs the arrays: when [colorMesh] is [None], or
    when the full form is asked for and [sampleFreqs] or [sampleTime] is
    [None], it raises [AttributeError] and nothing at all has changed, the
    attribute [container] included.  So it is on a new object. *)
Theorem save_needs_arrays (folder filename : string)
    (featurize compressed : bool) (s : state float) :
  colorMesh (self s) = None ∨
  (compressed = false ∧
   (sampleFreqs (self s) = None ∨ sampleTime (self s) = None)) →
  _saveFormat E folder filename featurize compressed s =
    (inl AttributeError, s) ∧
  ∀ s0, _saveFormat E folder filename featurize compressed (__init__ s0).2 =
          (inl AttributeError, (__init__ s0).2).
Proof.
  assert (Hgen : ∀ s' : state float,
    colorMesh (self s') = None ∨
    (compressed = false ∧
     (sampleFreqs (self s') = None ∨ sampleTime (self s') = None)) →
    _saveFormat E folder filename featurize compressed s' =
      (inl AttributeError, s')).
  { intros [[sf st cm fb ct] out fs]. cbn.
    unfold _saveFormat, tolist. unfold_M. cbn.
    intros H. destruct compressed, sf, st, cm; cbn; try done;
      destruct H as [H|[H [H'|H']]]; discriminate. }
  intros H. split; [by apply Hgen|].
  intros s0. apply Hgen. by left.
Qed.

(** X4. When [open] raises, [_saveFormat] raises the same exception and
    the files are as before, but the attribute [container] already holds
    the new document. *)
Theorem failed_open_keeps_files (folder filename : string)
    (featurize compressed : bool) (s : state float)
    (f t c : ndarray float) (e : exn) :
  sampleFreqs (self s) = Some f →
  sampleTime (self s) = Some t →
  colorMesh (self s) = Some c →
  open_w E ((folder +:+ filename) +:+ ".json") = Some e →
  let r := _saveFormat E folder filename featurize compressed s in
  r.1 = inl e ∧
  files r.2 = files s ∧
  stdout r.2 = stdout s ∧
  container (self r.2) =
    Some (PersistedDocument compressed featurize (mk_result f t c)
            (features (self s))).
Proof.
  intros Hf Ht Hc Hopen. cbv zeta.
  rewrite (_saveFormat_run E _ _ _ _ _ f t c) by done.
  unfold Serialization. cbv zeta. by rewrite Hopen.
Qed.

(** X5. When [json.dump] raises, [_saveFormat] raises the same exception
    and the file is left truncated: what it held before is lost. *)
Theorem failed_dump_truncates (folder filename : string)
    (featurize compressed : bool) (s : state float)
    (f t c : ndarray float) (e : exn) :
  sampleFreqs (self s) = Some f →
  sampleTime (self s) = Some t →
  colorMesh (self s) = Some c →
  open_w E ((folder +:+ filename) +:+ ".json") = None →
  json_dump E
    (Some (PersistedDocument compressed featurize (mk_result f t c)
             (features (self s)))) = Some e →
  let r := _saveFormat E folder filename featurize compressed s in
  r.1 = inl e ∧
  files r.2 = <[(folder +:+ filename) +:+ ".json" := Truncated]> (files s).
Proof.
  intros Hf Ht Hc Hopen Hdump. cbv zeta.
  rewrite (_saveFormat_run E _ _ _ _ _ f t c) by done.
  unfold Serialization. cbv zeta. by rewrite Hopen, Hdump.
Qed.

Lemma PersistedDocument_lookups (compressed includeFeatures : bool)
    (res : SpectrogramResult) (fb : option (ndarray float)) :
  let d := PersistedDocument compressed includeFeatures res fb in
  d !! "color_mesh" = Some (PyList (intensity res)) ∧
  d !! "sample_frequencies" =
    (if compressed then None else Some (PyList (frequencyBins res))) ∧
  d !! "sample_time" =
    (if compressed then None else Some (PyList (timeBins res))) ∧
  d !! "features" =
    (if includeFeatures then Some (from_option PyArray PyNone fb) else None).
Proof.
  unfold PersistedDocument.
  destruct compressed, includeFeatures; cbn; repeat split;
    by simplify_map_eq.
Qed.

(** X6. The document saved agrees with the object: under [color_mesh],
    [sample_frequencies] and [sample_time] it holds the lists of the
    arrays [colorMesh], [sampleFreqs] and [sampleTime] (the last two in
    the full form only), under [features] the attribute [features] when
    [featurize] is set, and [_saveFormat] leaves these attributes as they
    were. *)
Theorem saved_values_are_the_arrays (folder filename : string)
    (featurize compressed : bool) (s : state float) :
  let r := _saveFormat E folder filename featurize compressed s in
  r.1 = inr tt →
  (∃ d, files r.2 !! ((folder +:+ filename) +:+ ".json") =
          Some (Dumped (Some d)) ∧
        d !! "color_mesh" = PyList <$> colorMesh (self s) ∧
        d !! "sample_frequencies" =
          (if compressed then None else PyList <$> sampleFreqs (self s)) ∧
        d !! "sample_time" =
          (if compressed then None else PyList <$> sampleTime (self s)) ∧
        d !! "features" =
          (if featurize then Some (features_value (self s)) else None)) ∧
  sampleFreqs (self r.2) = sampleFreqs (self s) ∧
  sampleTime (self r.2) = sampleTime (self s) ∧
  colorMesh (self r.2) = colorMesh (self s) ∧
  features (self r.2) = features (self s).
Proof.
  cbv zeta.
  destruct (arrays_set_or_missing compressed (self s))
    as [(f & t & c & Hft & Hc)|Hnone].
  - rewrite (_saveFormat_run E _ _ _ _ _ f t c Hft Hc). cbv zeta.
    pose proof (Serialization_files E
      (PersistedDocument compressed featurize (mk_result f t c)
         (features (self s))) folder filename (files s)) as [_ Hok].
    pose proof (PersistedDocument_lookups compressed featurize
      (mk_result f t c) (features (self s))) as (Hc' & Hf' & Ht' & Hfb').
    destruct (Serialization E _ folder filename (files s)) as [r fs'].
    cbn in *. intros Hr. split; [|done].
    eexists. split; [by apply Hok|].
    rewrite Hc', Hf', Ht', Hfb', Hc. split; [done|].
    unfold features_value.
    destruct compressed; [by destruct (features (self s))|].
    destruct (Hft eq_refl) as [-> ->].
    by destruct (features (self s)).
  - destruct (_saveFormat_missing E folder filename featurize compressed s
                Hnone) as [Hr _].
    rewrite Hr. discriminate.
Qed.

(** ** Feature extraction *)

Lemma not_song_or_sr_true_iff (song : option (ndarray sample)) (sr : Z) :
  not_song_or_sr E song sr = inr true ↔
  sr = 0 ∧
  (song = None ∨ ∃ a, song = Some a ∧ ndarray_bool E a = inr false).
Proof.
  unfold not_song_or_sr. split.
  - destruct song as [a|].
    + destruct (ndarray_bool E a) as [e|[|]] eqn:Ha; try discriminate.
      intros [= Hsr%Z.eqb_eq]. split; [done|]. right. by exists a.
    + intros [= Hsr%Z.eqb_eq]. split; [done|]. by left.
  - intros [-> [->|(a & -> & ->)]]; reflexivity.
Qed.

Lemma FeatureExtraction_None_iff (song : option (ndarray sample))
    (S : option (ndarray float)) (sr : Z) (w : string) :
  FeatureExtraction E song S sr w = inr None ↔
  not_song_or_sr E song sr = inr true.
Proof.
  unfold FeatureExtraction, and_then.
  destruct (not_song_or_sr E song sr) as [e|[|]]; [done|done|].
  split; [|done].
  destruct (spectral_centroid E song sr S w) as [e|c]; [done|].
  destruct (spectral_rolloff E song sr S w) as [e|r]; [done|].
  destruct (melspectrogram E song sr S w) as [e|m]; [done|].
  by destruct (np_ndarray E c r m).
Qed.

(** X7. [_spectralFeatures] reports a missing input, that is prints its
    message and returns [None], exactly when the sample rate is 0 and
    [song] is [None] or an array that counts as false; whether [S] is
    given plays no part.  It prints nothing otherwise, and in no case does
    it change the object or the files: the attribute [features] is set by
    [__call__] only. *)
Theorem reported_exactly_when (song : option (ndarray sample))
    (S : option (ndarray float)) (sr : Z) (w : string) (s : state float) :
  let r := _spectralFeatures E song S sr w s in
  (r.1 = inr None ↔
   sr = 0 ∧
   (song = None ∨ ∃ a, song = Some a ∧ ndarray_bool E a = inr false)) ∧
  (r.1 = inr None →
   stdout r.2 = (stdout s ++ [missing_input_message])%list) ∧
  (r.1 ≠ inr None → stdout r.2 = stdout s) ∧
  self r.2 = self s ∧
  files r.2 = files s.
Proof.
  cbv zeta. rewrite _spectralFeatures_run.
  rewrite <- not_song_or_sr_true_iff,
    <- (FeatureExtraction_None_iff song S sr w).
  by destruct (FeatureExtraction E song S sr w) as [e|[fb|]].
Qed.

(** ** The entry point *)



(** X9. When the transform returns and feature extraction raises, the
    call raises the same exception with the object half updated: it holds
    the arrays of the new transform and the features it had before.  No
    file is written. *)
Theorem feature_failure_after_transform (songData : ndarray sample)
    (songSR : Z) (window : string) (fileName path : option string)
    (compressed : bool) (s : state float) (e : exn) :
  let t := _spectrogram E songData songSR window s in
  t.1 = inr tt →
  (_spectralFeatures E None (colorMesh (self t.2)) songSR window t.2).1 =
    inl e →
  let r := __call__ E songData songSR window fileName path compressed true
             s in
  r.1 = inl e ∧
  self r.2 = self t.2 ∧
  features (self r.2) = features (self s) ∧
  files r.2 = files s.
Proof.
  cbv zeta. rewrite __call___run, _spectrogram_run, _spectralFeatures_run.
  unfold Processor_run.
  destruct (Transform E songData songSR window) as [e'|res]; cbn;
    [discriminate|]. intros _.
  by destruct (FeatureExtraction E None (Some (intensity res)) songSR window)
    as [e'|[fb|]]; cbn; intros [= ->].
Qed.

(** The pipeline run again on what it left gives the same again. *)
Lemma Processor_run_again (songData : ndarray sample) (songSR : Z)
    (window : string) (fileName path : option string)
    (compressed featureize : bool) (o : spectrogram float)
    (fs : gmap string (json_file float)) :
  let r := Processor_run E songData songSR window fileName path compressed
             featureize o fs in
  Processor_run E songData songSR window fileName path compressed
    featureize r.1.2 r.2 = r.
Proof.
  cbv zeta. unfold Processor_run.
  destruct (Transform E songData songSR window) as [e|res]; [done|].
  destruct o as [sf st cm fb0 ct]. cbn.
  destruct featureize; cbn.
  - destruct (FeatureExtraction E None (Some (intensity res)) songSR window)
      as [e|fb] eqn:HF; cbn; rewrite ?HF; [done|].
    destruct fileName as [name|]; cbn; rewrite ?HF; [|done].
    destruct (String.eqb name "") eqn:Hname; cbn; rewrite ?HF, ?Hname;
      [done|].
    unfold Serialization.
    destruct (open_w E _) as [e|] eqn:Hopen; cbn; rewrite ?HF, ?Hname; cbn;
      rewrite ?Hopen; [done|].
    destruct (json_dump E _) as [e|] eqn:Hdump; cbn; rewrite ?HF, ?Hname;
      cbn; rewrite ?Hopen, ?Hdump, ?insert_insert_eq; done.
  - destruct fileName as [name|]; cbn; [|done].
    destruct (String.eqb name "") eqn:Hname; cbn; rewrite ?Hname; [done|].
    unfold Serialization.
    destruct (open_w E _) as [e|] eqn:Hopen; cbn; rewrite ?Hname; cbn;
      rewrite ?Hopen; [done|].
    destruct (json_dump E _) as [e|] eqn:Hdump; cbn; rewrite ?Hname;
      cbn; rewrite ?Hopen, ?Hdump, ?insert_insert_eq; done.
Qed.

(** X10. A call made a second time with the same arguments changes
    nothing more: it returns or raises as the first did and leaves the
    same object and the same files. *)
Theorem call_twice (songData : ndarray sample) (songSR : Z)
    (window : string) (fileName path : option string)
    (compressed featureize : bool) (s : state float) :
  let r := __call__ E songData songSR window fileName path compressed
             featureize s in
  observe (__call__ E songData songSR window fileName path compressed
             featureize r.2) = observe r.
Proof.
  cbv zeta. rewrite !__call___run.
  pose proof (Processor_run_again songData songSR window fileName path
                compressed featureize (self s) (files s)) as Hagain.
  cbv zeta in Hagain.
  destruct (Processor_run E songData songSR window fileName path compressed
              featureize (self s) (files s)) as [[r o'] fs'].
  cbn in *. rewrite Hagain. reflexivity.
Qed.

(** ** The script *)

(** X11. Run as a script the file never gets to a spectrogram: the method
    it calls at the end, [_spectralCentroid], is not one of the class.
    Either reading the wav file raises, and nothing has happened, or two
    objects are made and the run ends in [AttributeError]; in both cases
    no file is written. *)
Theorem script_ends_in_error
    (wavfile_read : string → exn + (Z * ndarray sample)) (s : state float) :
  let r := main E wavfile_read s in
  r.1 ≠ inr tt ∧
  files r.2 = files s ∧
  match wavfile_read "tests/Adele_Million_Years_Ago_10.wav" with
  | inl e => r = (inl e, s)
  | inr _ =>
      r.1 = inl AttributeError ∧
      self r.2 = mk_spectrogram None None None None None ∧
      stdout r.2 =
        (stdout s ++ ["Initializing Spectrogram"; "Initializing Spectrogram"])%list
  end.
Proof.
  cbv zeta. unfold main, __init__. unfold_M. cbn.
  destruct (wavfile_read _) as [e|[rate songdata]]; cbn; [done|].
  by rewrite <- app_assoc.
Qed.

End More.

(** *** Runs with the stand-in libraries *)

(** A channel-major table of two channels of three samples. *)
Lemma first_column_of_table_witness :
  Forall (λ r : list Z, length r = 3%nat) [[1; 2; 3]; [4; 5; 6]] ∧
  (0 < 3)%nat ∧
  first_channel (table 3 [[1; 2; 3]; [4; 5; 6]]) = inr (mono [1; 4]) ∧
  observe (_spectrogram Demo.lib (table 3 [[1; 2; 3]; [4; 5; 6]]) 22050
             "hann" Demo.fresh) =
    observe (_spectrogram Demo.lib (mono [1; 4]) 22050 "hann" Demo.fresh).
Proof.
  assert (Hrows : Forall (λ r : list Z, length r = 3%nat)
                    [[1; 2; 3]; [4; 5; 6]]) by (repeat constructor).
  split; [exact Hrows|]. split; [lia|].
  exact (first_column_of_table Demo.lib 3 [[1; 2; 3]; [4; 5; 6]] 22050
           "hann" Demo.fresh Hrows ltac:(lia)).
Defined.

(** Three rows of no sample. *)
Lemma empty_second_axis_witness :
  shape (mk_ndarray [3%nat; 0%nat] (@nil Z)) = [3%nat; 0%nat] ∧
  _spectrogram Demo.lib (mk_ndarray [3%nat; 0%nat] []) 22050 "hann"
      Demo.fresh =
    (inl IndexError,
     mk_state (self Demo.fresh) ["song is stereo"; "Converting .."]
       (files Demo.fresh)).
Proof.
  split; [reflexivity|].
  exact (empty_second_axis Demo.lib 3 (mk_ndarray [3%nat; 0%nat] []) 22050
           "hann" Demo.fresh eq_refl).
Defined.

(** A save on an object that has computed nothing. *)
Lemma save_needs_arrays_witness :
  colorMesh (self Demo.fresh) = None ∧
  _saveFormat Demo.lib "" "out" false true Demo.fresh =
    (inl AttributeError, Demo.fresh).
Proof.
  split; [reflexivity|].
  exact (proj1 (save_needs_arrays Demo.lib "" "out" false true Demo.fresh
                  (or_introl eq_refl))).
Defined.

(** A save where nothing can be opened. *)
Lemma failed_open_keeps_files_witness :
  open_w read_only_lib (("/tmp/" +:+ "out") +:+ ".json") = Some OSError ∧
  (let r := _saveFormat read_only_lib "/tmp/" "out" false true
              Demo.transformed in
   r.1 = inl OSError ∧
   files r.2 = files Demo.transformed ∧
   stdout r.2 = stdout Demo.transformed ∧
   container (self r.2) =
     Some {[ "color_mesh" := PyList (mk_ndarray [1%nat; 1%nat] [5]) ]}).
Proof.
  split; [reflexivity|].
  exact (failed_open_keeps_files read_only_lib "/tmp/" "out" false true
           Demo.transformed (mk_ndarray [1%nat] [0]) (mk_ndarray [1%nat] [0])
           (mk_ndarray [1%nat; 1%nat] [5]) OSError eq_refl eq_refl eq_refl
           eq_refl).
Defined.

(** A save of features the encoder cannot write. *)
Lemma failed_dump_truncates_witness :
  features (self featured) = Some (mk_ndarray [3%nat] [1; 2; 3]) ∧
  (let r := _saveFormat Demo.lib "" "out" true true featured in
   r.1 = inl TypeError ∧
   files r.2 = <[("" +:+ "out") +:+ ".json" := Truncated]> (files featured)).
Proof.
  split; [reflexivity|].
  apply (failed_dump_truncates Demo.lib "" "out" true true featured
           (mk_ndarray [1%nat] [0]) (mk_ndarray [1%nat] [0])
           (mk_ndarray [1%nat; 1%nat] [5]) TypeError);
    reflexivity.
Defined.

(** A full save, read back key by key. *)
Lemma saved_values_are_the_arrays_witness :
  let r := _saveFormat Demo.lib "" "out" false false Demo.transformed in
  r.1 = inr tt ∧
  (∃ d, files r.2 !! (("" +:+ "out") +:+ ".json") = Some (Dumped (Some d)) ∧
        d !! "color_mesh" = PyList <$> colorMesh (self Demo.transformed) ∧
        d !! "sample_frequencies" =
          PyList <$> sampleFreqs (self Demo.transformed) ∧
        d !! "sample_time" = PyList <$> sampleTime (self Demo.transformed) ∧
        d !! "features" = None).
Proof.
  cbv zeta. split; [reflexivity|].
  exact (proj1 (saved_values_are_the_arrays Demo.lib "" "out" false false
                  Demo.transformed eq_refl)).
Defined.

(** A call whose transform returns and whose [ndarray] raises. *)
Lemma feature_failure_after_transform_witness :
  let t := _spectrogram strict_ndarray_lib (mono [1; 2]) 22050 "hann"
             Demo.fresh in
  let r := __call__ strict_ndarray_lib (mono [1; 2]) 22050 "hann"
             (Some "out") None false true Demo.fresh in
  t.1 = inr tt ∧
  r.1 = inl TypeError ∧
  self r.2 = self t.2 ∧
  features (self r.2) = features (self Demo.fresh) ∧
  files r.2 = files Demo.fresh.
Proof.
  cbv zeta. split; [reflexivity|].
  exact (feature_failure_after_transform strict_ndarray_lib (mono [1; 2])
           22050 "hann" (Some "out") None false Demo.fresh TypeError
           eq_refl eq_refl).
Defined.
